(** * kenlm-rs: the C++ bridge of the language-model loader

    A shallow embedding of the two translation units of the bridge,

    - [src/cxx/lm/config.cc]: the constructor of [lm::ngram::Config], the
      factory [Config_Create] and the two setters exported to the caller;
    - [src/lm/virtual_interface.cc]: [Vocabulary::SetSpecial], the loader
      [LoadVirtualPtr] and the second factory [Config_Create];

    followed by the properties of the loader, of the vocabulary's reserved
    indices and of the configuration defaults.

    Conventions.  A C++ object that is mutated through a reference is passed
    in and returned (state passing).  A function that may throw returns
    [result A], the sum of an [exception] and a value.  A [std::unique_ptr]
    owns exactly one object and is modelled by that object.  A file name is
    a C string: [file_name.c_str()] hands the callee the characters of
    [file_name] itself, so both are the same [string] here. *)

From Stdlib Require Import ZArith NArith List.
From Stdlib Require Import Floats.SpecFloat.
From stdpp Require Import base strings gmap pretty.

Local Open Scope Z_scope.

(** ** Values shared by both translation units *)

(** A C++ pointer: null, or the address of an object.  Objects are told
    apart by their identity, which is all that the code below looks at. *)
Inductive pointer (T : Type) : Type :=
| NULL
| AddressOf (target : T).
Arguments NULL {T}.
Arguments AddressOf {T} target.

(** The stream objects of [<iostream>]; any other stream is known by an
    identifier. *)
Inductive ostream : Type :=
| std_cout
| std_cerr
| std_clog
| user_stream (id : N).

(** An object implementing the [EnumerateVocab] callback interface.  The
    bridge never calls it, it only stores its address. *)
Record EnumerateVocab : Type := CallbackObject { callback_id : N }.

(** The two floating-point fields are taken as C++ [float], IEEE 754
    binary32 (config.hh, which declares them, is not among the sources; the
    two literals stored in them are exact in binary64 as well, see
    [float_literals_in_binary64]). *)
Definition float : Type := spec_float.
Definition float_prec : Z := 24.
Definition float_emax : Z := 128.

(** The value of a floating literal [m * 2^e] once stored in a [float]
    (round to nearest even, as the conversion does). *)
Definition float_literal (m e : Z) : float :=
  binary_normalize float_prec float_emax m e false.

Definition float_lt (x y : float) : bool := SFltb x y.
Definition float_le (x y : float) : bool := SFleb x y.

(** Modelled from the spec: the enumeration [WarningAction] of config.hh,
    which is not among the sources; section 6 lists the policy set
    {COMPLAIN, SILENT, THROW_UP}. *)
Inductive WarningAction : Type := COMPLAIN | SILENT | THROW_UP.

(** Modelled from the spec: the enumeration [ARPALoadComplain] of config.hh;
    section 6 lists the verbosity tiers {NONE, EXPENSIVE, ALL}. *)
Inductive ARPALoadComplain : Type := NONE | EXPENSIVE | ALL.

(** Modelled from the spec: the enumeration [WriteMethod] of config.hh, "when
    the binary image is materialized relative to build": while it is built,
    through a writable mapping, or after the build. *)
Inductive WriteMethod : Type := WRITE_MMAP | WRITE_AFTER.

(** Modelled from the spec: the enumeration [RestFunction] of config.hh; the
    spec names one aggregation rule, the maximum over extensions.  As with
    any C++ enumeration, an object of the type can hold a value that is
    none of its enumerators (a member left without initializer, an integer
    converted to the type); [OtherRestFunction] carries such a value. *)
Inductive RestFunction : Type :=
| REST_MAX
| OtherRestFunction (raw : Z).

(** Modelled from the spec: the enumeration [util::LoadMethod], declared
    outside the sources; section 6 distinguishes lazy faulting from eager
    population of the mapping. *)
Inductive LoadMethod : Type := LAZY | POPULATE_OR_READ.

(** Modelled from the spec: the enumeration [ModelType] of model_type.hh,
    with the six tags of section 3.  An object of a C++ enumeration type can
    hold a value that is none of its enumerators, and [RecognizeBinary]
    copies the tag out of the file header, so a seventh case carries such a
    raw value, different from those of the six enumerators; it is the one
    the [default:] label of the loader catches. *)
Inductive ModelType : Type :=
| PROBING
| REST_PROBING
| TRIE
| QUANT_TRIE
| ARRAY_TRIE
| QUANT_ARRAY_TRIE
| UnrecognizedTag (raw : Z).

#[global] Instance ModelType_eq_dec : EqDecision ModelType.
Proof. solve_decision. Defined.

(** The exceptions that leave the loader: the one it throws itself, and
    whatever a call into the model library raised. *)
Inductive exception : Type :=
| FormatLoadException (what : string)
| LibraryException (what : string).

(** The outcome of a call that may throw. *)
Inductive result (A : Type) : Type :=
| Returned (a : A)
| Thrown (e : exception).
Arguments Returned {A} a.
Arguments Thrown {A} e.

#[global] Instance result_ret : MRet result := fun A a => Returned a.
#[global] Instance result_bind : MBind result := fun A B k c =>
  match c with
  | Returned a => k a
  | Thrown e => Thrown e
  end.
#[global] Instance result_throw : MThrow exception result := fun A e => Thrown e.

(** ** src/cxx/lm/config.cc *)

(** The data members of [lm::ngram::Config], in the order of the
    constructor's initializer list. *)
Record Config : Type := {
  show_progress : bool;
  messages : pointer ostream;
  enumerate_vocab : pointer EnumerateVocab;
  unknown_missing : WarningAction;
  sentence_marker_missing : WarningAction;
  positive_log_probability : WarningAction;
  unknown_missing_logprob : float;
  probing_multiplier : float;
  building_memory : Z;
  temporary_directory_prefix : string;
  arpa_complain : ARPALoadComplain;
  write_mmap : pointer string;
  write_method : WriteMethod;
  include_vocab : bool;
  rest_function : RestFunction;
  prob_bits : Z;
  backoff_bits : Z;
  pointer_bhiksha_bits : Z;
  load_method : LoadMethod
}.

(** [Config::Config()].  The literals [-100.0] and [1.5] are [-25 * 2^2] and
    [3 * 2^-1]. *)
Definition Config_ctor : Config := {|
  show_progress := true;
  messages := AddressOf std_cerr;
  enumerate_vocab := NULL;
  unknown_missing := COMPLAIN;
  sentence_marker_missing := THROW_UP;
  positive_log_probability := THROW_UP;
  unknown_missing_logprob := float_literal (-25) 2;
  probing_multiplier := float_literal 3 (-1);
  building_memory := 1073741824;
  temporary_directory_prefix := "";
  arpa_complain := ALL;
  write_mmap := NULL;
  write_method := WRITE_AFTER;
  include_vocab := true;
  rest_function := REST_MAX;
  prob_bits := 8;
  backoff_bits := 8;
  pointer_bhiksha_bits := 22;
  load_method := POPULATE_OR_READ
|}.

Module ngram.

(** [std::make_unique<Config>()]: a fresh, default-constructed object. *)
Definition Config_Create : Config := Config_ctor.

(** [config.load_method = load_method;] *)
Definition Config_set_load_method (config : Config) (m : LoadMethod) : Config := {|
  show_progress := show_progress config;
  messages := messages config;
  enumerate_vocab := enumerate_vocab config;
  unknown_missing := unknown_missing config;
  sentence_marker_missing := sentence_marker_missing config;
  positive_log_probability := positive_log_probability config;
  unknown_missing_logprob := unknown_missing_logprob config;
  probing_multiplier := probing_multiplier config;
  building_memory := building_memory config;
  temporary_directory_prefix := temporary_directory_prefix config;
  arpa_complain := arpa_complain config;
  write_mmap := write_mmap config;
  write_method := write_method config;
  include_vocab := include_vocab config;
  rest_function := rest_function config;
  prob_bits := prob_bits config;
  backoff_bits := backoff_bits config;
  pointer_bhiksha_bits := pointer_bhiksha_bits config;
  load_method := m
|}.

(** [config.enumerate_vocab = &enumerateCallback;] *)
Definition Config_set_enumerate_callback
    (config : Config) (enumerateCallback : EnumerateVocab) : Config :=
  let enumerateCallbackPtr := AddressOf enumerateCallback in {|
  show_progress := show_progress config;
  messages := messages config;
  enumerate_vocab := enumerateCallbackPtr;
  unknown_missing := unknown_missing config;
  sentence_marker_missing := sentence_marker_missing config;
  positive_log_probability := positive_log_probability config;
  unknown_missing_logprob := unknown_missing_logprob config;
  probing_multiplier := probing_multiplier config;
  building_memory := building_memory config;
  temporary_directory_prefix := temporary_directory_prefix config;
  arpa_complain := arpa_complain config;
  write_mmap := write_mmap config;
  write_method := write_method config;
  include_vocab := include_vocab config;
  rest_function := rest_function config;
  prob_bits := prob_bits config;
  backoff_bits := backoff_bits config;
  pointer_bhiksha_bits := pointer_bhiksha_bits config;
  load_method := load_method config
|}.

End ngram.

(** A caller of the bridge can change a [Config] only through the two
    setters; [ConfigCall] names one such call and [Config_calls] runs a
    sequence of them, first to last. *)
Inductive ConfigCall : Type :=
| Call_set_load_method (m : LoadMethod)
| Call_set_enumerate_callback (enumerateCallback : EnumerateVocab).

Definition Config_call (config : Config) (call : ConfigCall) : Config :=
  match call with
  | Call_set_load_method m => ngram.Config_set_load_method config m
  | Call_set_enumerate_callback cb => ngram.Config_set_enumerate_callback config cb
  end.

Definition Config_calls (calls : list ConfigCall) (config : Config) : Config :=
  fold_left Config_call calls config.

(** ** src/lm/virtual_interface.cc *)

(** [WordIndex] is an unsigned integer; no arithmetic is done on it here. *)
Definition WordIndex : Type := N.

(** The data members of [lm::base::Vocabulary] that [SetSpecial] writes. *)
Record Vocabulary : Type := {
  begin_sentence_ : WordIndex;
  end_sentence_ : WordIndex;
  not_found_ : WordIndex
}.

(** The functions of the model library that the loader calls; they are
    declared in model.hh and binary_format.hh and defined outside the
    sources, so the loader is stated over any implementation of them.

    [RecognizeBinary] takes the caller's tag variable by reference: it
    returns its boolean together with the value it leaves in the variable.
    The six constructors take the file name and the configuration; the
    object they build is seen through its base class [Model]. *)
Class ModelLibrary (Model : Type) : Type := {
  RecognizeBinary : string → ModelType → result (bool * ModelType);
  ProbingModel : string → Config → result Model;
  RestProbingModel : string → Config → result Model;
  TrieModel : string → Config → result Model;
  QuantTrieModel : string → Config → result Model;
  ArrayTrieModel : string → Config → result Model;
  QuantArrayTrieModel : string → Config → result Model
}.

Module base.

(** [Vocabulary::SetSpecial]: three assignments to the object. *)
Definition SetSpecial (this : Vocabulary)
    (begin_sentence end_sentence not_found : WordIndex) : Vocabulary := {|
  begin_sentence_ := begin_sentence;
  end_sentence_ := end_sentence;
  not_found_ := not_found
|}.

Section Loader.
Context {Model : Type} `{!ModelLibrary Model}.

(** [LoadVirtualPtr].  The value returned by [RecognizeBinary] is
    dropped; only the tag variable is read afterwards.  [UTIL_THROW] is a
    macro of the model library: of the exception it builds, the class and
    the text streamed into it are kept, an enumeration value being printed
    as its integer. *)
Definition LoadVirtualPtr (file_name : string) (config : Config) : result Model :=
  let model_type := PROBING in
  '(_, model_type) ← RecognizeBinary file_name model_type;
  match model_type with
  | PROBING => ProbingModel file_name config
  | REST_PROBING => RestProbingModel file_name config
  | TRIE => TrieModel file_name config
  | QUANT_TRIE => QuantTrieModel file_name config
  | ARRAY_TRIE => ArrayTrieModel file_name config
  | QUANT_ARRAY_TRIE => QuantArrayTrieModel file_name config
  | UnrecognizedTag raw =>
      mthrow (FormatLoadException ("Confused by model type " +:+ pretty raw))
  end.

End Loader.

(** [std::make_unique<Config>()] again, in the other namespace. *)
Definition Config_Create : Config := Config_ctor.

End base.

(** A sequence of [SetSpecial] calls on one vocabulary object, first to
    last; each call is given by its three arguments. *)
Definition SetSpecial_calls
    (calls : list (WordIndex * WordIndex * WordIndex)) (v : Vocabulary) : Vocabulary :=
  fold_left (λ v '(b, e, n), base.SetSpecial v b e n) calls v.

(** ** A model library over a table of files

    The loader is run on concrete inputs against this implementation of
    [ModelLibrary]. *)

(** What the header of a file says: a binary image with its tag, or
    anything else. *)
Inductive FileKind : Type :=
| BinaryImage (tag : ModelType)
| PlainText.

(** A model object, known by the constructor that built it and by the
    arguments it was given. *)
Record ModelObject : Type := Built {
  built_as : ModelType;
  built_from : string;
  built_with : Config
}.

Section DiskLibrary.
Variable disk : gmap string FileKind.

(** Modelled from the spec: [RecognizeBinary] of the model library,
    section 4.6, "presence of a recognized magic/tag selects one of the
    six variants; absence signals the file must instead be routed through
    the build path".  A tag is produced only for an image, so for plain
    text the caller's variable keeps its value; a header with a tag this
    version does not know is passed on as it is, for the loader's guard to
    reject.  A file that cannot be opened raises. *)
Definition disk_RecognizeBinary (file : string) (recognized : ModelType)
    : result (bool * ModelType) :=
  match disk !! file with
  | Some (BinaryImage tag) => mret (true, tag)
  | Some PlainText => mret (false, recognized)
  | None => mthrow (LibraryException ("Cannot open " +:+ file))
  end.

(** The constructors open the file and build the object of their class. *)
Definition disk_construct (class : ModelType) (file : string) (config : Config)
    : result ModelObject :=
  match disk !! file with
  | Some _ => mret (Built class file config)
  | None => mthrow (LibraryException ("Cannot open " +:+ file))
  end.

Definition disk_library : ModelLibrary ModelObject := {|
  RecognizeBinary := disk_RecognizeBinary;
  ProbingModel := disk_construct PROBING;
  RestProbingModel := disk_construct REST_PROBING;
  TrieModel := disk_construct TRIE;
  QuantTrieModel := disk_construct QUANT_TRIE;
  ArrayTrieModel := disk_construct ARRAY_TRIE;
  QuantArrayTrieModel := disk_construct QUANT_ARRAY_TRIE
|}.
End DiskLibrary.

(** A directory with one image of each variant, one image written with a
    tag of a later version, and one ARPA text file. *)
Definition example_disk : gmap string FileKind :=
  {[ "lm.probing" := BinaryImage PROBING;
     "lm.rest_probing" := BinaryImage REST_PROBING;
     "lm.trie" := BinaryImage TRIE;
     "lm.quant_trie" := BinaryImage QUANT_TRIE;
     "lm.array_trie" := BinaryImage ARRAY_TRIE;
     "lm.quant_array_trie" := BinaryImage QUANT_ARRAY_TRIE;
     "lm.future" := BinaryImage (UnrecognizedTag 7);
     "lm.arpa" := PlainText ]}.

Definition example_library : ModelLibrary ModelObject := disk_library example_disk.

(** The library [L] with the boolean of [RecognizeBinary] passed through
    [f]; the tag it leaves, its exceptions and the constructors are those
    of [L]. *)
Definition with_report {Model : Type} (f : bool → bool) (L : ModelLibrary Model)
    : ModelLibrary Model := {|
  RecognizeBinary file recognized :=
    '(b, t) ← @RecognizeBinary Model L file recognized; mret (f b, t);
  ProbingModel := @ProbingModel Model L;
  RestProbingModel := @RestProbingModel Model L;
  TrieModel := @TrieModel Model L;
  QuantTrieModel := @QuantTrieModel Model L;
  ArrayTrieModel := @ArrayTrieModel Model L;
  QuantArrayTrieModel := @QuantArrayTrieModel Model L
|}.

(** The seventeen fields of a [Config] that neither setter names. *)
Definition Config_unset_fields (c : Config) :=
  (show_progress c, messages c, unknown_missing c, sentence_marker_missing c,
   positive_log_probability c, unknown_missing_logprob c, probing_multiplier c,
   building_memory c, temporary_directory_prefix c, arpa_complain c,
   write_mmap c, write_method c, include_vocab c, rest_function c,
   prob_bits c, backoff_bits c, pointer_bhiksha_bits c).

(** ** The conditions under which a build raises ConfigError

    None of the building code is among the sources; these are the
    conditions as the specification gives them. *)

(** Modelled from the spec: the aggregation rules the system supports;
    sections 4.5 and 6 name one, "maximum over extensions", "currently
    maximum-only". *)
Definition supported_rest_function (r : RestFunction) : bool :=
  match r with
  | REST_MAX => true
  | OtherRestFunction _ => false
  end.

(** Modelled from the spec: the width check of [QuantizationTable.Build],
    section 4.2, "fails if bits == 0 or exceeds an implementation ceiling
    (practically <= 24-25 bits)"; the ceiling is left as an argument. *)
Definition QuantizationTable_Build_rejects (ceiling bits : Z) : bool :=
  (bits =? 0) || (ceiling <? bits).

(** Modelled from the spec: the multiplier check of
    [ProbingHashStore.Build], section 4.3, "fails if the multiplier is
    <= 1.0". *)
Definition ProbingHashStore_Build_rejects (multiplier : float) : bool :=
  float_le multiplier (float_literal 1 0).

(** Modelled from the spec: the pointer check of [TrieStore.Build], section
    4.4, "fails with a structural error if any required pointer value
    exceeds 2^pointerBits - 1"; [required] lists the pointer values that the
    entries being built need. *)
Definition TrieStore_Build_pointer_overflow (pointerBits : Z) (required : list Z) : bool :=
  existsb (λ p, 2 ^ pointerBits - 1 <? p) required.

(** Modelled from the spec: whether building with configuration [c] raises
    a ConfigError, over the three conditions of section 7, "zero
    quantization bits, multiplier <= 1.0, pointer-width overflow". *)
Definition ConfigError_raised (ceiling : Z) (c : Config) (required : list Z) : bool :=
  ProbingHashStore_Build_rejects (probing_multiplier c)
  || QuantizationTable_Build_rejects ceiling (prob_bits c)
  || QuantizationTable_Build_rejects ceiling (backoff_bits c)
  || TrieStore_Build_pointer_overflow (pointer_bhiksha_bits c) required.

(** * Properties *)

(** ** The configuration *)

Section ConfigFacts.

Lemma Config_call_messages (config : Config) (call : ConfigCall) :
  messages (Config_call config call) = messages config.
Proof. destruct call; reflexivity. Qed.

Lemma Config_calls_messages (calls : list ConfigCall) (config : Config) :
  messages (Config_calls calls config) = messages config.
Proof.
  revert config.
  induction calls as [|call calls IH]; intros config; [reflexivity|].
  cbn. unfold Config_calls in IH. rewrite IH. apply Config_call_messages.
Qed.

(** The two stored literals, in canonical binary32 form: the conversion
    is exact, [13107200 * 2^-17 = 100] (with the sign bit set) and
    [12582912 * 2^-23 = 3/2]. *)
Lemma unknown_missing_logprob_value :
  unknown_missing_logprob Config_ctor = S754_finite true 13107200 (-17)
  ∧ 13107200 = 100 * 2 ^ 17.
Proof. split; reflexivity. Qed.

Lemma probing_multiplier_value :
  probing_multiplier Config_ctor = S754_finite false 12582912 (-23)
  ∧ 2 * 12582912 = 3 * 2 ^ 23.
Proof. split; reflexivity. Qed.

Lemma float_literals_valid :
  valid_binary float_prec float_emax (unknown_missing_logprob Config_ctor) = true
  ∧ valid_binary float_prec float_emax (probing_multiplier Config_ctor) = true.
Proof. split; reflexivity. Qed.

(** The same two literals stored in a [double]: the comparisons used below
    come out the same. *)
Lemma float_literals_in_binary64 :
  SFltb (binary_normalize 53 1024 1 0 false) (binary_normalize 53 1024 3 (-1) false)
    = true
  ∧ SFltb (binary_normalize 53 1024 (-25) 2 false) (binary_normalize 53 1024 0 0 false)
    = true.
Proof. split; reflexivity. Qed.

Lemma Config_ctor_ConfigError_raised (ceiling : Z) (required : list Z) :
  24 ≤ ceiling →
  ConfigError_raised ceiling Config_ctor required
  = TrieStore_Build_pointer_overflow 22 required.
Proof.
  intros Hceiling. unfold ConfigError_raised, QuantizationTable_Build_rejects.
  cbn [prob_bits backoff_bits pointer_bhiksha_bits probing_multiplier Config_ctor].
  replace (ceiling <? 8) with false by (symmetry; apply Z.ltb_ge; lia).
  reflexivity.
Qed.

(** C5, as amended: a default-constructed Config meets the structural
    constraints on the parameters themselves: the probing multiplier (1.5)
    is strictly greater than 1.0, and prob_bits (8), backoff_bits (8) and
    pointer_bhiksha_bits (22) are nonzero and at most 24, hence also at most
    25; so no build rejects the multiplier or a quantization width.  A
    ConfigError is still raised with the defaults exactly when the data
    needs a pointer value above 2^22 - 1. *)
Theorem Config_ctor_structurally_valid :
  probing_multiplier Config_ctor = float_literal 3 (-1)
  ∧ float_lt (float_literal 1 0) (probing_multiplier Config_ctor) = true
  ∧ (prob_bits Config_ctor = 8 ∧ prob_bits Config_ctor ≠ 0
     ∧ prob_bits Config_ctor ≤ 24 ∧ prob_bits Config_ctor ≤ 25)
  ∧ (backoff_bits Config_ctor = 8 ∧ backoff_bits Config_ctor ≠ 0
     ∧ backoff_bits Config_ctor ≤ 24 ∧ backoff_bits Config_ctor ≤ 25)
  ∧ (pointer_bhiksha_bits Config_ctor = 22 ∧ pointer_bhiksha_bits Config_ctor ≠ 0
     ∧ pointer_bhiksha_bits Config_ctor ≤ 24 ∧ pointer_bhiksha_bits Config_ctor ≤ 25)
  ∧ ProbingHashStore_Build_rejects (probing_multiplier Config_ctor) = false
  ∧ (∀ ceiling : Z, 24 ≤ ceiling →
       QuantizationTable_Build_rejects ceiling (prob_bits Config_ctor) = false
       ∧ QuantizationTable_Build_rejects ceiling (backoff_bits Config_ctor) = false)
  ∧ (∀ (ceiling : Z) (required : list Z), 24 ≤ ceiling →
       ConfigError_raised ceiling Config_ctor required = true
       ↔ ∃ p : Z, In p required ∧ 2 ^ 22 - 1 < p).
Proof.
  do 2 (split; [reflexivity|]).
  cbn [prob_bits backoff_bits pointer_bhiksha_bits Config_ctor].
  do 3 (split; [repeat split; lia|]).
  split; [reflexivity|]. split.
  - intros ceiling Hceiling. unfold QuantizationTable_Build_rejects.
    replace (ceiling <? 8) with false by (symmetry; apply Z.ltb_ge; lia).
    split; reflexivity.
  - intros ceiling required Hceiling.
    rewrite (Config_ctor_ConfigError_raised _ _ Hceiling).
    unfold TrieStore_Build_pointer_overflow. rewrite existsb_exists.
    split; intros (p & Hin & Hp); exists p; (split; [exact Hin|]).
    + apply Z.ltb_lt. exact Hp.
    + apply Z.ltb_lt. exact Hp.
Qed.

(** C5, as stated, fails: with the default 22 pointer bits, entries that
    need the pointer value 2^22 = 4194304 make the build raise a
    ConfigError, whichever ceiling is taken. *)
Lemma Config_ctor_pointer_overflow :
  ConfigError_raised 24 Config_ctor [4194304] = true
  ∧ ConfigError_raised 25 Config_ctor [4194304] = true
  ∧ ¬ (∀ (ceiling : Z) (required : list Z),
         ConfigError_raised ceiling Config_ctor required = false).
Proof.
  split; [reflexivity|]. split; [reflexivity|].
  intros H. specialize (H 24 [4194304]). discriminate H.
Qed.

(** C6: a default-constructed Config has its messages sink pointing at
    std::cerr, and it still does after any sequence of calls to the two
    setters, none of which sets a sink. *)
Theorem Config_ctor_messages_cerr :
  messages Config_ctor = AddressOf std_cerr
  ∧ ∀ calls : list ConfigCall,
      messages (Config_calls calls Config_ctor) = AddressOf std_cerr.
Proof.
  split; [reflexivity|].
  intros calls. now rewrite Config_calls_messages.
Qed.

Lemma Config_call_rest_function (config : Config) (call : ConfigCall) :
  rest_function (Config_call config call) = rest_function config.
Proof. destruct call; reflexivity. Qed.

Lemma Config_calls_rest_function (calls : list ConfigCall) (config : Config) :
  rest_function (Config_calls calls config) = rest_function config.
Proof.
  revert config.
  induction calls as [|call calls IH]; intros config; [reflexivity|].
  cbn. unfold Config_calls in IH. rewrite IH. apply Config_call_rest_function.
Qed.

(** C7: the default-constructed Config selects REST_MAX, the maximum over
    extensions; that is a supported aggregation rule, and the only one; and
    neither setter changes the selection. *)
Theorem Config_ctor_rest_function_max :
  rest_function Config_ctor = REST_MAX
  ∧ supported_rest_function (rest_function Config_ctor) = true
  ∧ (∀ r : RestFunction, supported_rest_function r = true → r = REST_MAX)
  ∧ ∀ calls : list ConfigCall,
      rest_function (Config_calls calls Config_ctor) = REST_MAX.
Proof.
  split; [reflexivity|]. split; [reflexivity|]. split.
  - intros [|raw] Hsupported; [reflexivity | discriminate Hsupported].
  - intros calls. now rewrite Config_calls_rest_function.
Qed.

(** C8: the default substituted log-probability for unknown words, -100.0,
    is strictly below zero, hence at most zero. *)
Theorem Config_ctor_unknown_missing_logprob_negative :
  unknown_missing_logprob Config_ctor = float_literal (-100) 0
  ∧ float_lt (unknown_missing_logprob Config_ctor) (float_literal 0 0) = true
  ∧ float_le (unknown_missing_logprob Config_ctor) (float_literal 0 0) = true.
Proof. repeat split. Qed.

(** C9: each setter changes its own field and no other: after
    Config_set_load_method(c, m) the load method is m, after
    Config_set_enumerate_callback(c, cb) the callback pointer is the
    address of cb, and the eighteen other fields are those of c. *)
Theorem Config_setters_frame (c : Config) (m : LoadMethod) (cb : EnumerateVocab) :
  (let c' := ngram.Config_set_load_method c m in
   load_method c' = m
   ∧ show_progress c' = show_progress c
   ∧ messages c' = messages c
   ∧ enumerate_vocab c' = enumerate_vocab c
   ∧ unknown_missing c' = unknown_missing c
   ∧ sentence_marker_missing c' = sentence_marker_missing c
   ∧ positive_log_probability c' = positive_log_probability c
   ∧ unknown_missing_logprob c' = unknown_missing_logprob c
   ∧ probing_multiplier c' = probing_multiplier c
   ∧ building_memory c' = building_memory c
   ∧ temporary_directory_prefix c' = temporary_directory_prefix c
   ∧ arpa_complain c' = arpa_complain c
   ∧ write_mmap c' = write_mmap c
   ∧ write_method c' = write_method c
   ∧ include_vocab c' = include_vocab c
   ∧ rest_function c' = rest_function c
   ∧ prob_bits c' = prob_bits c
   ∧ backoff_bits c' = backoff_bits c
   ∧ pointer_bhiksha_bits c' = pointer_bhiksha_bits c)
  ∧
  (let c' := ngram.Config_set_enumerate_callback c cb in
   enumerate_vocab c' = AddressOf cb
   ∧ show_progress c' = show_progress c
   ∧ messages c' = messages c
   ∧ unknown_missing c' = unknown_missing c
   ∧ sentence_marker_missing c' = sentence_marker_missing c
   ∧ positive_log_probability c' = positive_log_probability c
   ∧ unknown_missing_logprob c' = unknown_missing_logprob c
   ∧ probing_multiplier c' = probing_multiplier c
   ∧ building_memory c' = building_memory c
   ∧ temporary_directory_prefix c' = temporary_directory_prefix c
   ∧ arpa_complain c' = arpa_complain c
   ∧ write_mmap c' = write_mmap c
   ∧ write_method c' = write_method c
   ∧ include_vocab c' = include_vocab c
   ∧ rest_function c' = rest_function c
   ∧ prob_bits c' = prob_bits c
   ∧ backoff_bits c' = backoff_bits c
   ∧ pointer_bhiksha_bits c' = pointer_bhiksha_bits c
   ∧ load_method c' = load_method c).
Proof. split; cbn; repeat split. Qed.

(** C10: both factories return a configuration equal, field for field, to
    a default-constructed one, and so to each other. *)
Theorem Config_Create_default :
  let a := ngram.Config_Create in
  let b := base.Config_Create in
  a = Config_ctor ∧ b = Config_ctor ∧ a = b
  ∧ show_progress a = show_progress b
  ∧ messages a = messages b
  ∧ enumerate_vocab a = enumerate_vocab b
  ∧ unknown_missing a = unknown_missing b
  ∧ sentence_marker_missing a = sentence_marker_missing b
  ∧ positive_log_probability a = positive_log_probability b
  ∧ unknown_missing_logprob a = unknown_missing_logprob b
  ∧ probing_multiplier a = probing_multiplier b
  ∧ building_memory a = building_memory b
  ∧ temporary_directory_prefix a = temporary_directory_prefix b
  ∧ arpa_complain a = arpa_complain b
  ∧ write_mmap a = write_mmap b
  ∧ write_method a = write_method b
  ∧ include_vocab a = include_vocab b
  ∧ rest_function a = rest_function b
  ∧ prob_bits a = prob_bits b
  ∧ backoff_bits a = backoff_bits b
  ∧ pointer_bhiksha_bits a = pointer_bhiksha_bits b
  ∧ load_method a = load_method b.
Proof. cbv zeta. repeat split. Qed.

End ConfigFacts.

(** ** The reserved indices of the vocabulary *)

Section VocabularyFacts.

Lemma SetSpecial_calls_app calls1 calls2 (v : Vocabulary) :
  SetSpecial_calls (calls1 ++ calls2) v
  = SetSpecial_calls calls2 (SetSpecial_calls calls1 v).
Proof. apply fold_left_app. Qed.

(** C4, as amended: a call of SetSpecial stores its three arguments,
    whatever the object held before; so after any sequence of calls the
    reserved indices are the arguments of the last one. *)
Theorem SetSpecial_last_call_wins
    (v : Vocabulary) (earlier : list (WordIndex * WordIndex * WordIndex))
    (b e n : WordIndex) :
  (let v' := base.SetSpecial v b e n in
   begin_sentence_ v' = b ∧ end_sentence_ v' = e ∧ not_found_ v' = n)
  ∧
  (let v' := SetSpecial_calls (earlier ++ [(b, e, n)]) v in
   begin_sentence_ v' = b ∧ end_sentence_ v' = e ∧ not_found_ v' = n).
Proof.
  split; [repeat split|].
  rewrite SetSpecial_calls_app. cbn. repeat split.
Qed.

(** C4, as stated, fails: nothing stops a second call, and it replaces the
    indices the first one stored (here the not-found index 0 becomes 3). *)
Lemma SetSpecial_second_call_overwrites :
  ¬ (∀ (v : Vocabulary) (b e n b' e' n' : WordIndex),
       not_found_ (base.SetSpecial (base.SetSpecial v b e n) b' e' n') = n).
Proof.
  intros H.
  specialize (H {| begin_sentence_ := 0; end_sentence_ := 0; not_found_ := 0 |}
                1 2 0 4 5 3)%N.
  discriminate H.
Qed.

End VocabularyFacts.

(** ** The loader *)

Section LoaderFacts.
Context {Model : Type} `{!ModelLibrary Model}.

(** What the loader does once [RecognizeBinary] has returned: the boolean
    plays no part, the tag alone selects the constructor. *)
Lemma LoadVirtualPtr_after_recognize file config (b : bool) (t : ModelType) :
  RecognizeBinary file PROBING = Returned (b, t) →
  base.LoadVirtualPtr file config =
    match t with
    | PROBING => ProbingModel file config
    | REST_PROBING => RestProbingModel file config
    | TRIE => TrieModel file config
    | QUANT_TRIE => QuantTrieModel file config
    | ARRAY_TRIE => ArrayTrieModel file config
    | QUANT_ARRAY_TRIE => QuantArrayTrieModel file config
    | UnrecognizedTag raw =>
        Thrown (FormatLoadException ("Confused by model type " +:+ pretty raw))
    end.
Proof.
  intros Hrec. unfold base.LoadVirtualPtr. rewrite Hrec. reflexivity.
Qed.

(** An exception of [RecognizeBinary] leaves the loader unchanged. *)
Lemma LoadVirtualPtr_recognize_throws file config (e : exception) :
  RecognizeBinary file PROBING = Thrown e →
  base.LoadVirtualPtr file config = Thrown e.
Proof.
  intros Hrec. unfold base.LoadVirtualPtr. rewrite Hrec. reflexivity.
Qed.

(** C1, as amended: when RecognizeBinary reports that the file is not a
    binary model and leaves the tag variable at its initial value PROBING,
    the loader drops the report and returns what the ProbingModel
    constructor returns for the same file name and configuration. *)
Theorem LoadVirtualPtr_not_binary_builds_probing file config :
  RecognizeBinary file PROBING = Returned (false, PROBING) →
  base.LoadVirtualPtr file config = ProbingModel file config.
Proof.
  intros Hrec. now rewrite (LoadVirtualPtr_after_recognize _ _ _ _ Hrec).
Qed.

(** C2: when the tag left by RecognizeBinary is none of the six recognized
    ones, the loader throws a FormatLoadException (its message names the
    raw tag) and returns no model. *)
Theorem LoadVirtualPtr_unrecognized_tag_throws file config (b : bool) (t : ModelType) :
  RecognizeBinary file PROBING = Returned (b, t) →
  t ∉ [PROBING; REST_PROBING; TRIE; QUANT_TRIE; ARRAY_TRIE; QUANT_ARRAY_TRIE] →
  (∃ raw : Z,
      t = UnrecognizedTag raw
      ∧ base.LoadVirtualPtr file config
        = Thrown (FormatLoadException ("Confused by model type " +:+ pretty raw)))
  ∧ ∀ m : Model, base.LoadVirtualPtr file config ≠ Returned m.
Proof.
  intros Hrec Hnot.
  rewrite (LoadVirtualPtr_after_recognize _ _ _ _ Hrec).
  destruct t as [| | | | | |raw];
    try (exfalso; apply Hnot; set_solver).
  split; [by exists raw | discriminate].
Qed.

(** C3: for each of the six recognized tags left by RecognizeBinary, the
    loader returns what the constructor of the corresponding class returns
    for the file name and the configuration it was given. *)
Theorem LoadVirtualPtr_dispatch file config (b : bool) (t : ModelType) :
  RecognizeBinary file PROBING = Returned (b, t) →
  (t = PROBING → base.LoadVirtualPtr file config = ProbingModel file config)
  ∧ (t = REST_PROBING →
     base.LoadVirtualPtr file config = RestProbingModel file config)
  ∧ (t = TRIE → base.LoadVirtualPtr file config = TrieModel file config)
  ∧ (t = QUANT_TRIE →
     base.LoadVirtualPtr file config = QuantTrieModel file config)
  ∧ (t = ARRAY_TRIE →
     base.LoadVirtualPtr file config = ArrayTrieModel file config)
  ∧ (t = QUANT_ARRAY_TRIE →
     base.LoadVirtualPtr file config = QuantArrayTrieModel file config).
Proof.
  intros Hrec.
  rewrite (LoadVirtualPtr_after_recognize _ _ _ _ Hrec).
  repeat split; intros ->; reflexivity.
Qed.

End LoaderFacts.

(** ** The loader on the example directory *)

Section LoaderExamples.
#[local] Existing Instance example_library.

Lemma example_missing_file :
  base.LoadVirtualPtr "lm.none" Config_ctor
  = Thrown (LibraryException "Cannot open lm.none").
Proof. reflexivity. Qed.

(** C1, as stated, fails: "lm.arpa" is reported as not binary, and the
    loader returns a model built from that very path by the ProbingModel
    constructor. *)
Lemma LoadVirtualPtr_loads_plain_text :
  RecognizeBinary "lm.arpa" PROBING = Returned (false, PROBING)
  ∧ base.LoadVirtualPtr "lm.arpa" Config_ctor
    = Returned (Built PROBING "lm.arpa" Config_ctor)
  ∧ ¬ (∀ file config t,
         RecognizeBinary file PROBING = Returned (false, t) →
         ∀ m : ModelObject, base.LoadVirtualPtr file config ≠ Returned m).
Proof.
  split; [reflexivity|]. split; [reflexivity|].
  intros H.
  apply (H "lm.arpa" Config_ctor PROBING eq_refl (Built PROBING "lm.arpa" Config_ctor)).
  reflexivity.
Qed.

(** The amended C1 at "lm.arpa". *)
Lemma LoadVirtualPtr_not_binary_builds_probing_witness :
  RecognizeBinary "lm.arpa" PROBING = Returned (false, PROBING)
  ∧ base.LoadVirtualPtr "lm.arpa" Config_ctor = ProbingModel "lm.arpa" Config_ctor.
Proof.
  split; [reflexivity|].
  apply (LoadVirtualPtr_not_binary_builds_probing "lm.arpa" Config_ctor).
  reflexivity.
Defined.

(** C2 at "lm.future", whose header carries the tag 7. *)
Lemma LoadVirtualPtr_unrecognized_tag_throws_witness :
  RecognizeBinary "lm.future" PROBING = Returned (true, UnrecognizedTag 7)
  ∧ (UnrecognizedTag 7
      ∉ [PROBING; REST_PROBING; TRIE; QUANT_TRIE; ARRAY_TRIE; QUANT_ARRAY_TRIE])
  ∧ (∃ raw : Z,
        UnrecognizedTag 7 = UnrecognizedTag raw
        ∧ base.LoadVirtualPtr "lm.future" Config_ctor
          = Thrown (FormatLoadException ("Confused by model type " +:+ pretty raw)))
  ∧ ∀ m : ModelObject, base.LoadVirtualPtr "lm.future" Config_ctor ≠ Returned m.
Proof.
  assert (Hnot : UnrecognizedTag 7
      ∉ [PROBING; REST_PROBING; TRIE; QUANT_TRIE; ARRAY_TRIE; QUANT_ARRAY_TRIE])
    by (apply (bool_decide_unpack _); vm_compute; reflexivity).
  split; [reflexivity|]. split; [exact Hnot|].
  apply (LoadVirtualPtr_unrecognized_tag_throws
           "lm.future" Config_ctor true (UnrecognizedTag 7)); [reflexivity | exact Hnot].
Defined.

(** C3 at "lm.quant_trie". *)
Lemma LoadVirtualPtr_dispatch_witness :
  RecognizeBinary "lm.quant_trie" PROBING = Returned (true, QUANT_TRIE)
  ∧ base.LoadVirtualPtr "lm.quant_trie" Config_ctor
    = Returned (Built QUANT_TRIE "lm.quant_trie" Config_ctor).
Proof.
  split; [reflexivity|].
  destruct (LoadVirtualPtr_dispatch "lm.quant_trie" Config_ctor true QUANT_TRIE)
    as (_ & _ & _ & Hquant & _); [reflexivity|].
  rewrite (Hquant eq_refl). reflexivity.
Defined.

(** The six images of the directory are each loaded by the constructor of
    their own class. *)
Lemma example_six_variants :
  base.LoadVirtualPtr "lm.probing" Config_ctor
    = Returned (Built PROBING "lm.probing" Config_ctor)
  ∧ base.LoadVirtualPtr "lm.rest_probing" Config_ctor
    = Returned (Built REST_PROBING "lm.rest_probing" Config_ctor)
  ∧ base.LoadVirtualPtr "lm.trie" Config_ctor
    = Returned (Built TRIE "lm.trie" Config_ctor)
  ∧ base.LoadVirtualPtr "lm.quant_trie" Config_ctor
    = Returned (Built QUANT_TRIE "lm.quant_trie" Config_ctor)
  ∧ base.LoadVirtualPtr "lm.array_trie" Config_ctor
    = Returned (Built ARRAY_TRIE "lm.array_trie" Config_ctor)
  ∧ base.LoadVirtualPtr "lm.quant_array_trie" Config_ctor
    = Returned (Built QUANT_ARRAY_TRIE "lm.quant_array_trie" Config_ctor).
Proof. repeat split. Qed.

End LoaderExamples.

(** ** More on the loader: what it returns and what it throws *)

Section LoaderOutcomes.
Context {Model : Type} `{!ModelLibrary Model}.

(** X1: the loader returns a model exactly when RecognizeBinary returned,
    left one of the six tags, and the constructor of that tag returned this
    model for the same file name and configuration; it never returns a model
    from anywhere else. *)
Theorem LoadVirtualPtr_returns_iff file config (m : Model) :
  base.LoadVirtualPtr file config = Returned m ↔
  ∃ (b : bool) (t : ModelType),
    RecognizeBinary file PROBING = Returned (b, t)
    ∧ ((t = PROBING ∧ ProbingModel file config = Returned m)
       ∨ (t = REST_PROBING ∧ RestProbingModel file config = Returned m)
       ∨ (t = TRIE ∧ TrieModel file config = Returned m)
       ∨ (t = QUANT_TRIE ∧ QuantTrieModel file config = Returned m)
       ∨ (t = ARRAY_TRIE ∧ ArrayTrieModel file config = Returned m)
       ∨ (t = QUANT_ARRAY_TRIE ∧ QuantArrayTrieModel file config = Returned m)).
Proof.
  split.
  - intros Hload.
    destruct (RecognizeBinary file PROBING) as [[b t]|e] eqn:Hrec.
    + rewrite (LoadVirtualPtr_after_recognize _ _ _ _ Hrec) in Hload.
      exists b, t. split; [reflexivity|].
      destruct t; try discriminate Hload; tauto.
    + rewrite (LoadVirtualPtr_recognize_throws _ _ _ Hrec) in Hload.
      discriminate Hload.
  - intros (b & t & Hrec & Hcase).
    rewrite (LoadVirtualPtr_after_recognize _ _ _ _ Hrec).
    destruct Hcase as [[-> H]|[[-> H]|[[-> H]|[[-> H]|[[-> H]|[-> H]]]]]];
      exact H.
Qed.

(** X2: the loader throws e exactly when RecognizeBinary threw e, or the
    constructor selected by the tag threw e, or the tag is none of the six
    and e is the FormatLoadException naming it; that last one is the only
    exception of its own. *)
Theorem LoadVirtualPtr_throws_iff file config (e : exception) :
  base.LoadVirtualPtr file config = Thrown e ↔
  RecognizeBinary file PROBING = Thrown e
  ∨ ∃ (b : bool) (t : ModelType),
      RecognizeBinary file PROBING = Returned (b, t)
      ∧ ((t = PROBING ∧ ProbingModel file config = Thrown e)
         ∨ (t = REST_PROBING ∧ RestProbingModel file config = Thrown e)
         ∨ (t = TRIE ∧ TrieModel file config = Thrown e)
         ∨ (t = QUANT_TRIE ∧ QuantTrieModel file config = Thrown e)
         ∨ (t = ARRAY_TRIE ∧ ArrayTrieModel file config = Thrown e)
         ∨ (t = QUANT_ARRAY_TRIE ∧ QuantArrayTrieModel file config = Thrown e)
         ∨ (∃ raw : Z,
              t = UnrecognizedTag raw
              ∧ e = FormatLoadException ("Confused by model type " +:+ pretty raw))).
Proof.
  split.
  - intros Hload.
    destruct (RecognizeBinary file PROBING) as [[b t]|e'] eqn:Hrec.
    + rewrite (LoadVirtualPtr_after_recognize _ _ _ _ Hrec) in Hload.
      right. exists b, t. split; [reflexivity|].
      destruct t as [| | | | | |raw]; try tauto.
      do 6 right. exists raw. split; [reflexivity|]. congruence.
    + rewrite (LoadVirtualPtr_recognize_throws _ _ _ Hrec) in Hload.
      left. congruence.
  - intros [Hrec | (b & t & Hrec & Hcase)].
    + exact (LoadVirtualPtr_recognize_throws _ _ _ Hrec).
    + rewrite (LoadVirtualPtr_after_recognize _ _ _ _ Hrec).
      destruct Hcase
        as [[-> H]|[[-> H]|[[-> H]|[[-> H]|[[-> H]|[[-> H]|(raw & -> & ->)]]]]]];
        try exact H.
      reflexivity.
Qed.

End LoaderOutcomes.

(** X3: the boolean returned by RecognizeBinary has no influence on the
    loader: whatever is done to it, the loader returns or throws the same. *)
Theorem LoadVirtualPtr_ignores_report {Model : Type} (L : ModelLibrary Model)
    (f : bool → bool) file config :
  @base.LoadVirtualPtr Model (with_report f L) file config
  = @base.LoadVirtualPtr Model L file config.
Proof.
  unfold base.LoadVirtualPtr. cbn.
  destruct (@RecognizeBinary Model L file PROBING) as [[b t]|e]; reflexivity.
Qed.

(** ** More on the setters: how calls compose *)

Section SetterComposition.

Lemma Config_call_unset_fields (config : Config) (call : ConfigCall) :
  Config_unset_fields (Config_call config call) = Config_unset_fields config.
Proof. destruct call; reflexivity. Qed.

Lemma Config_calls_cons call calls (config : Config) :
  Config_calls (call :: calls) config = Config_calls calls (Config_call config call).
Proof. reflexivity. Qed.

Lemma Config_calls_app calls1 calls2 (config : Config) :
  Config_calls (calls1 ++ calls2) config
  = Config_calls calls2 (Config_calls calls1 config).
Proof. apply fold_left_app. Qed.

Lemma Config_calls_unset_fields (calls : list ConfigCall) (config : Config) :
  Config_unset_fields (Config_calls calls config) = Config_unset_fields config.
Proof.
  revert config.
  induction calls as [|call calls IH]; intros config; [reflexivity|].
  rewrite Config_calls_cons, IH. apply Config_call_unset_fields.
Qed.

Lemma Config_calls_callbacks_load_method (cbs : list EnumerateVocab) (config : Config) :
  load_method (Config_calls (map Call_set_enumerate_callback cbs) config)
  = load_method config.
Proof.
  revert config.
  induction cbs as [|cb cbs IH]; intros config; [reflexivity|].
  cbn [map]. rewrite Config_calls_cons, IH. reflexivity.
Qed.

Lemma Config_calls_load_methods_enumerate_vocab (ms : list LoadMethod) (config : Config) :
  enumerate_vocab (Config_calls (map Call_set_load_method ms) config)
  = enumerate_vocab config.
Proof.
  revert config.
  induction ms as [|m ms IH]; intros config; [reflexivity|].
  cbn [map]. rewrite Config_calls_cons, IH. reflexivity.
Qed.

Lemma Config_calls_keep_callback (calls : list ConfigCall) (config : Config) :
  (∃ cb, enumerate_vocab config = AddressOf cb) →
  ∃ cb, enumerate_vocab (Config_calls calls config) = AddressOf cb.
Proof.
  revert config.
  induction calls as [|call calls IH]; intros config Hset; [exact Hset|].
  rewrite Config_calls_cons. apply IH.
  destruct call as [m|cb']; [exact Hset | by exists cb'].
Qed.

(** X4: the two setters commute: setting the load method and the callback
    in either order gives the same configuration. *)
Theorem Config_setters_commute (c : Config) (m : LoadMethod) (cb : EnumerateVocab) :
  ngram.Config_set_load_method (ngram.Config_set_enumerate_callback c cb) m
  = ngram.Config_set_enumerate_callback (ngram.Config_set_load_method c m) cb.
Proof. reflexivity. Qed.

(** X5: a setter overwrites: of two calls of the same setter only the
    second counts, and setting the load method a configuration already has
    leaves the configuration as it is. *)
Theorem Config_setters_overwrite (c : Config) (m1 m2 : LoadMethod)
    (cb1 cb2 : EnumerateVocab) :
  ngram.Config_set_load_method (ngram.Config_set_load_method c m1) m2
  = ngram.Config_set_load_method c m2
  ∧ ngram.Config_set_enumerate_callback (ngram.Config_set_enumerate_callback c cb1) cb2
    = ngram.Config_set_enumerate_callback c cb2
  ∧ ngram.Config_set_load_method c (load_method c) = c.
Proof. split; [reflexivity|]. split; [reflexivity|]. destruct c; reflexivity. Qed.

(** X6: a callback, once set, can be replaced but not removed: after
    Config_set_enumerate_callback and any further setter calls the callback
    pointer is the address of some callback object, never null. *)
Theorem Config_callback_never_reset (c : Config) (cb : EnumerateVocab)
    (calls : list ConfigCall) :
  ∃ cb' : EnumerateVocab,
    enumerate_vocab (Config_calls calls (ngram.Config_set_enumerate_callback c cb))
    = AddressOf cb'.
Proof. apply Config_calls_keep_callback. by exists cb. Qed.

(** X7: a sequence of setter calls, however long, leaves the seventeen
    fields other than load_method and enumerate_vocab as they were. *)
Theorem Config_calls_frame (calls : list ConfigCall) (c : Config) :
  let c' := Config_calls calls c in
  show_progress c' = show_progress c
  ∧ messages c' = messages c
  ∧ unknown_missing c' = unknown_missing c
  ∧ sentence_marker_missing c' = sentence_marker_missing c
  ∧ positive_log_probability c' = positive_log_probability c
  ∧ unknown_missing_logprob c' = unknown_missing_logprob c
  ∧ probing_multiplier c' = probing_multiplier c
  ∧ building_memory c' = building_memory c
  ∧ temporary_directory_prefix c' = temporary_directory_prefix c
  ∧ arpa_complain c' = arpa_complain c
  ∧ write_mmap c' = write_mmap c
  ∧ write_method c' = write_method c
  ∧ include_vocab c' = include_vocab c
  ∧ rest_function c' = rest_function c
  ∧ prob_bits c' = prob_bits c
  ∧ backoff_bits c' = backoff_bits c
  ∧ pointer_bhiksha_bits c' = pointer_bhiksha_bits c.
Proof.
  cbv zeta. pose proof (Config_calls_unset_fields calls c) as H.
  unfold Config_unset_fields in H. injection H as -> -> -> -> -> -> -> -> -> -> -> -> -> -> -> -> ->.
  repeat split.
Qed.

(** X8: a default-constructed Config keeps meeting the structural
    constraints (multiplier above 1.0, the three bit widths nonzero and at
    most 24) after any sequence of setter calls. *)
Theorem Config_calls_keep_structurally_valid (calls : list ConfigCall) :
  let c := Config_calls calls Config_ctor in
  float_lt (float_literal 1 0) (probing_multiplier c) = true
  ∧ (prob_bits c ≠ 0 ∧ prob_bits c ≤ 24)
  ∧ (backoff_bits c ≠ 0 ∧ backoff_bits c ≤ 24)
  ∧ (pointer_bhiksha_bits c ≠ 0 ∧ pointer_bhiksha_bits c ≤ 24).
Proof.
  cbv zeta. pose proof (Config_calls_unset_fields calls Config_ctor) as H.
  unfold Config_unset_fields in H.
  injection H as _ _ _ _ _ _ -> _ _ _ _ _ _ _ -> -> ->.
  split; [reflexivity|].
  cbn [prob_bits backoff_bits pointer_bhiksha_bits Config_ctor].
  repeat split; lia.
Qed.

(** X9: after a sequence of setter calls each of the two settable fields
    holds the argument of the last call of its own setter, whatever calls of
    the other setter follow it, and its old value if its setter was not
    called at all. *)
Theorem Config_calls_last_write_wins (c : Config) (before : list ConfigCall)
    (m : LoadMethod) (cb : EnumerateVocab)
    (ms : list LoadMethod) (cbs : list EnumerateVocab) :
  load_method
    (Config_calls (before ++ Call_set_load_method m
                     :: map Call_set_enumerate_callback cbs) c) = m
  ∧ enumerate_vocab
      (Config_calls (before ++ Call_set_enumerate_callback cb
                       :: map Call_set_load_method ms) c) = AddressOf cb
  ∧ load_method (Config_calls (map Call_set_enumerate_callback cbs) c)
    = load_method c
  ∧ enumerate_vocab (Config_calls (map Call_set_load_method ms) c)
    = enumerate_vocab c.
Proof.
  repeat split.
  - rewrite Config_calls_app, Config_calls_cons,
      Config_calls_callbacks_load_method. reflexivity.
  - rewrite Config_calls_app, Config_calls_cons,
      Config_calls_load_methods_enumerate_vocab. reflexivity.
  - apply Config_calls_callbacks_load_method.
  - apply Config_calls_load_methods_enumerate_vocab.
Qed.

End SetterComposition.

(** ** More on the reserved indices *)

Section VocabularyCalls.

(** X10: once SetSpecial has been called, what the object held before the
    first call has no influence: two objects that receive the same nonempty
    sequence of calls end up equal. *)
Theorem SetSpecial_calls_forget_initial
    (call : WordIndex * WordIndex * WordIndex)
    (calls : list (WordIndex * WordIndex * WordIndex)) (v v' : Vocabulary) :
  SetSpecial_calls (call :: calls) v = SetSpecial_calls (call :: calls) v'.
Proof. destruct call as [[b e] n]. reflexivity. Qed.

End VocabularyCalls.
